(** * Grocery management agents: the orchestration script [app/app.py]

    The script builds four crewAI agents and four tasks, puts them in one
    crew and runs it on a receipt read from disk.  This development embeds
    the script's own code: the two environment assignments, the receipt
    loader, the constructor calls with their keyword arguments, the crew
    call and the main block.

    What lives outside the script is a parameter: the [markdown] renderer,
    and the framework's constructors [WebsiteSearchTool(...)], [Agent(...)],
    [Task(...)] and the call [Crew(...).kickoff()].  Each framework call
    runs in the world, may change it, and returns an object or raises. *)

From stdpp Require Import gmap strings list.

Local Open Scope string_scope.

(** ** Values passed to the framework *)

Local Unset Elimination Schemes.

(** The literals handed over as [expected_output]: nested Python dicts,
    lists and strings.  A dict literal keeps its keys in the order they are
    written, so it is an association list. *)
Inductive pyval : Type :=
| PStr (s : string)
| PList (items : list pyval)
| PDict (entries : list (string * pyval)).

(** The keyword arguments of [WebsiteSearchTool(website=...)]. *)
Module WebsiteSearchTool.
Record kwargs : Type := Build { website : string }.
End WebsiteSearchTool.

(** The keyword arguments of [Agent(...)]: one field per keyword the
    script passes, [None] for a keyword that a call leaves out.  [tools]
    holds the tool objects the framework returned. *)
Module Agent.
Record kwargs (ToolObj : Type) : Type := Build {
    role : string;
    goal : string;
    backstory : string;
    personality : string;
    allow_delegation : bool;
    verbose : bool;
    tools : option (list ToolObj);
    human_input : option bool
  }.
Arguments Build {ToolObj}.
Arguments role {ToolObj}.
Arguments goal {ToolObj}.
Arguments backstory {ToolObj}.
Arguments personality {ToolObj}.
Arguments allow_delegation {ToolObj}.
Arguments verbose {ToolObj}.
Arguments tools {ToolObj}.
Arguments human_input {ToolObj}.
End Agent.

(** The keyword arguments of [Task(...)]: [agent] is the agent object and
    [context] the list of task objects the framework returned earlier,
    [None] when the keyword is left out. *)
Module Task.
Record kwargs (AgentObj TaskObj : Type) : Type := Build {
    agent : AgentObj;
    description : string;
    expected_output : pyval;
    context : option (list TaskObj);
    human_input : option bool;
    output_file : option string
  }.
Arguments Build {AgentObj TaskObj}.
Arguments agent {AgentObj TaskObj}.
Arguments description {AgentObj TaskObj}.
Arguments expected_output {AgentObj TaskObj}.
Arguments context {AgentObj TaskObj}.
Arguments human_input {AgentObj TaskObj}.
Arguments output_file {AgentObj TaskObj}.
End Task.

(** The keyword arguments of [Crew(agents=..., tasks=..., verbose=...)]. *)
Module Crew.
Record kwargs (AgentObj TaskObj : Type) : Type := Build {
    agents : list AgentObj;
    tasks : list TaskObj;
    verbose : bool
  }.
Arguments Build {AgentObj TaskObj}.
Arguments agents {AgentObj TaskObj}.
Arguments tasks {AgentObj TaskObj}.
Arguments verbose {AgentObj TaskObj}.
End Crew.

(** A task object that is nothing but the keyword arguments it was built
    from, agents and tools likewise; used to run the script with a
    framework that keeps what it is given. *)
Inductive recorded_task : Type :=
| Recorded (kw : Task.kwargs (Agent.kwargs WebsiteSearchTool.kwargs) recorded_task).

Local Set Elimination Schemes.

(** [list(agents)] on the 4-tuple returned by [create_agents]. *)
Definition list_of_tuple {AgentObj : Type}
    (agents : AgentObj * AgentObj * AgentObj * AgentObj) : list AgentObj :=
  let '(a1, a2, a3, a4) := agents in [a1; a2; a3; a4].

(** ** The process and its surroundings *)

(** What the script and the framework can touch: the environment mapping
    [os.environ], the files that can be opened and read as text (path to
    contents), the command line, the lines still to come on the terminal
    and the lines printed so far. *)
Record World : Type := {
  environ : gmap string string;
  files : gmap string string;
  argv : list string;
  stdin : list string;
  stdout : list string
}.

Definition with_environ (e : gmap string string) (w : World) : World :=
  {| environ := e; files := files w; argv := argv w;
     stdin := stdin w; stdout := stdout w |}.

Definition with_argv (a : list string) (w : World) : World :=
  {| environ := environ w; files := files w; argv := a;
     stdin := stdin w; stdout := stdout w |}.

Definition with_stdout (out : list string) (w : World) : World :=
  {| environ := environ w; files := files w; argv := argv w;
     stdin := stdin w; stdout := out |}.

(** Exceptions that can travel through the script. *)
Inductive exn : Type :=
| FileNotFoundError (filename : string)
| ValidationError (field : string)
| FrameworkError (msg : string).

Inductive outcome (A : Type) : Type :=
| Returned (a : A)
| Raised (e : exn).

Arguments Returned {A} a.
Arguments Raised {A} e.

(** A Python statement: it runs in a world and either returns or raises,
    leaving a world behind. *)
Definition M (A : Type) : Type := World -> outcome A * World.

Definition ret {A : Type} (a : A) : M A := fun w => (Returned a, w).

Definition bind {A B : Type} (m : M A) (k : A -> M B) : M B :=
  fun w =>
    match m w with
    | (Returned a, w') => k a w'
    | (Raised e, w') => (Raised e, w')
    end.

#[export] Instance M_ret : MRet M := @ret.
#[export] Instance M_bind : MBind M := fun A B k m => bind m k.

(** [raise e] *)
Definition raise {A : Type} (e : exn) : M A := fun w => (Raised e, w).

(** [os.environ[k] = v] *)
Definition environ_setitem (k v : string) : M unit :=
  fun w => (Returned tt, with_environ (<[k := v]> (environ w)) w).

(** [open(file_path, 'r')] followed by [f.read()]: the whole contents, or
    the open error when nothing is at that path. *)
Definition open_read (file_path : string) : M string :=
  fun w =>
    match files w !! file_path with
    | Some contents => (Returned contents, w)
    | None => (Raised (FileNotFoundError file_path), w)
    end.

(** [print(s)] *)
Definition print (s : string) : M unit :=
  fun w => (Returned tt, with_stdout (stdout w ++ [s]) w).

(** ** Step 1: environment *)

Definition setup_environment (_ : unit) : M unit :=
  environ_setitem "OPENAI_API_KEY" "[YOUR OPENAI API KEY]" ;;
  environ_setitem "LLAMA_OCR_API_KEY" "[YOUR LLAMA OCR API KEY]".

(** The two globals assigned in the main block. *)
Definition receipt_file_path : string :=
  "../data/grocery_management_agents_system/extracted/grocery_receipt.md".

Definition today : string := "2024-11-16".

(** ** The keyword arguments of the constructor calls *)

Section Kwargs.

Context {ToolObj AgentObj TaskObj : Type}.

(** [WebsiteSearchTool(website=...)] at lines 66 and 98. *)
Definition expiration_date_search_web_tool_kwargs : WebsiteSearchTool.kwargs :=
  {| WebsiteSearchTool.website := "https://www.stilltasty.com/" |}.

Definition recipe_web_tool_kwargs : WebsiteSearchTool.kwargs :=
  {| WebsiteSearchTool.website := "https://www.americastestkitchen.com/recipes" |}.

(** [Agent(...)] for the receipt interpreter (lines 50-63). *)
Definition receipt_interpreter_agent_kwargs
  : Agent.kwargs ToolObj := {|
    Agent.role := "Receipt Markdown Interpreter";
    Agent.goal :=
      "Extract items, their counts, and weights with units from a receipt in markdown format. "
      +:+ "Provide structured data to support the grocery management system.";
    Agent.backstory :=
      "As a key member of the grocery management crew, this agent extracts details such as item names, "
      +:+ "quantities, and weights from receipt markdown files. Its role is vital for tracking inventory levels.";
    Agent.personality := "Diligent, detail-oriented, and efficient.";
    Agent.allow_delegation := false;
    Agent.verbose := true;
    Agent.tools := None;
    Agent.human_input := None
|}.

(** [Agent(...)] for the expiration date estimator (lines 67-80); its
    [tools] list holds the tool object built just before. *)
Definition expiration_date_search_agent_kwargs (expiration_date_search_web_tool : ToolObj)
  : Agent.kwargs ToolObj := {|
    Agent.role := "Expiration Date Estimation Specialist";
    Agent.goal :=
      "Estimate the expiration dates of items extracted by the Receipt Interpreter Agent. "
      +:+ "Utilize online sources to determine typical shelf life when refrigerated.";
    Agent.backstory :=
      "This agent ensures groceries are consumed before expiration by searching for shelf-life estimates online.";
    Agent.personality := "Meticulous, resourceful, and reliable.";
    Agent.allow_delegation := false;
    Agent.verbose := true;
    Agent.tools := Some [expiration_date_search_web_tool];
    Agent.human_input := None
|}.

(** [Agent(...)] for the grocery tracker (lines 83-95). *)
Definition grocery_tracker_agent_kwargs
  : Agent.kwargs ToolObj := {|
    Agent.role := "Grocery Inventory Tracker";
    Agent.goal :=
      "Track remaining groceries based on user consumption input. "
      +:+ "Update the inventory list and provide expiration dates.";
    Agent.backstory :=
      "This agent ensures groceries are accurately tracked, minimizing waste and helping users stay organized.";
    Agent.personality := "Helpful, detail-oriented, and responsive.";
    Agent.allow_delegation := false;
    Agent.verbose := true;
    Agent.tools := None;
    Agent.human_input := None
|}.

(** [Agent(...)] for the recipe recommender (lines 99-113). *)
Definition recipe_recommendation_agent_kwargs (recipe_web_tool : ToolObj)
  : Agent.kwargs ToolObj := {|
    Agent.role := "Grocery Recipe Recommendation Specialist";
    Agent.goal :=
      "Recommend recipes using available ingredients. "
      +:+ "Suggest restocking recommendations if ingredients are insufficient.";
    Agent.backstory :=
      "This agent helps households make the most out of their remaining groceries by finding suitable recipes.";
    Agent.personality := "Creative, resourceful, and efficient.";
    Agent.allow_delegation := false;
    Agent.verbose := true;
    Agent.tools := Some [recipe_web_tool];
    Agent.human_input := Some true
|}.

(** [Task(...)] for reading the receipt (lines 147-164). *)
Definition read_receipt_task_kwargs (receipt_markdown today : string)
    (receipt_interpreter_agent : AgentObj)
  : Task.kwargs AgentObj TaskObj := {|
    Task.agent := receipt_interpreter_agent;
    Task.description :=
      ("Analyze the receipt markdown file: " +:+ receipt_markdown +:+ ". ")
      +:+ "Extract information on items purchased, their counts, weights, and units. "
      +:+ ("Today's date is " +:+ today
           +:+ ". Ensure all item names are clear and human-readable.");
    Task.expected_output :=
      PDict [
        ("items", PList [
           PDict [
             ("item_name", PStr "string - Human-readable name of the item");
             ("count", PStr "integer - Number of units purchased");
             ("unit", PStr "string - Unit of measurement (e.g., kg, lbs, pcs)")
           ]
         ]);
        ("date_of_purchase", PStr "string - Date in YYYY-MM-DD format")
      ];
    Task.context := None;
    Task.human_input := None;
    Task.output_file := None
|}.

(** [Task(...)] for estimating expiration dates (lines 167-184). *)
Definition expiration_date_search_task_kwargs
    (expiration_date_search_agent : AgentObj) (read_receipt_task : TaskObj)
  : Task.kwargs AgentObj TaskObj := {|
    Task.agent := expiration_date_search_agent;
    Task.description :=
      "Using the list of items extracted by the Receipt Interpreter Agent, search online to find the typical shelf life of each item. "
      +:+ "Add this information to the purchase date to estimate the expiration date for each item.";
    Task.expected_output :=
      PDict [
        ("items", PList [
           PDict [
             ("item_name", PStr "string - Human-readable name of the item");
             ("count", PStr "integer - Number of units purchased");
             ("unit", PStr "string - Unit of measurement (e.g., kg, lbs, pcs)");
             ("expiration_date", PStr "string - Estimated expiration date in YYYY-MM-DD format")
           ]
         ])
      ];
    Task.context := Some [read_receipt_task];
    Task.human_input := None;
    Task.output_file := None
|}.

(** [Task(...)] for tracking groceries (lines 187-206). *)
Definition grocery_tracking_task_kwargs
    (grocery_tracker_agent : AgentObj) (expiration_date_search_task : TaskObj)
  : Task.kwargs AgentObj TaskObj := {|
    Task.agent := grocery_tracker_agent;
    Task.description :=
      "Using the grocery list with expiration dates, update the inventory based on user input about consumed items. "
      +:+ "Subtract consumed quantities and provide a summary of what's left, including expiration dates.";
    Task.expected_output :=
      PDict [
        ("items", PList [
           PDict [
             ("item_name", PStr "string - Human-readable name of the item");
             ("count", PStr "integer - Updated number of units remaining");
             ("unit", PStr "string - Unit of measurement (e.g., kg, lbs, pcs)");
             ("expiration_date", PStr "string - Estimated expiration date in YYYY-MM-DD format")
           ]
         ])
      ];
    Task.context := Some [expiration_date_search_task];
    Task.human_input := Some true;
    Task.output_file :=
      Some "../data/grocery_management_agents_system/output/grocery_tracker.json"
|}.

(** [Task(...)] for recommending recipes (lines 209-240). *)
Definition recipe_recommendation_task_kwargs
    (recipe_recommendation_agent : AgentObj) (grocery_tracking_task : TaskObj)
  : Task.kwargs AgentObj TaskObj := {|
    Task.agent := recipe_recommendation_agent;
    Task.description :=
      "Using the updated grocery list, search online for recipes that utilize available ingredients. "
      +:+ "If no suitable recipe can be found, provide restocking recommendations.";
    Task.expected_output :=
      PDict [
        ("recipes", PList [
           PDict [
             ("recipe_name", PStr "string - Name of the recipe");
             ("ingredients", PList [
                PDict [
                  ("item_name", PStr "string - Ingredient name");
                  ("quantity", PStr "string - Quantity required");
                  ("unit", PStr "string - Measurement unit (e.g., kg, pcs, tbsp)")
                ]
              ]);
             ("steps", PList [PStr "string - Step-by-step instructions for the recipe"]);
             ("source", PStr "string - Website URL for the recipe")
           ]
         ]);
        ("restock_recommendations", PList [
           PDict [
             ("item_name", PStr "string - Name of the item to restock");
             ("quantity_needed", PStr "integer - Suggested quantity to purchase");
             ("unit", PStr "string - Measurement unit (e.g., kg, pcs)")
           ]
         ])
      ];
    Task.context := Some [grocery_tracking_task];
    Task.human_input := None;
    Task.output_file :=
      Some "../data/grocery_management_agents_system/output/recipe_recommendation.json"
|}.

End Kwargs.

Section Script.

Context {ToolObj AgentObj TaskObj CrewOutput : Type}.

(** [markdown.markdown]: the renderer of the [markdown] package. *)
Variable markdown : string -> string.

(** The framework's constructors, each called with its keyword
    arguments; they validate what they are given, may reach out to the
    network, and return the object or raise. *)
Variable new_tool : WebsiteSearchTool.kwargs -> M ToolObj.
Variable new_agent : Agent.kwargs ToolObj -> M AgentObj.
Variable new_task : Task.kwargs AgentObj TaskObj -> M TaskObj.

(** [Crew(...)] followed by [.kickoff()]: the framework runs the agents,
    talks to the model, the web and the terminal, and writes the output
    files; it may raise. *)
Variable kickoff : Crew.kwargs AgentObj TaskObj -> M CrewOutput.

(** ** Step 2: receipt *)

Definition load_receipt (file_path : string) : M string :=
  contents ← open_read file_path;
  mret (markdown contents).

(** ** Step 3: agents *)

Definition create_agents (_ : unit)
  : M (AgentObj * AgentObj * AgentObj * AgentObj) :=
  receipt_interpreter_agent ← new_agent receipt_interpreter_agent_kwargs;
  expiration_date_search_web_tool ← new_tool expiration_date_search_web_tool_kwargs;
  expiration_date_search_agent ←
    new_agent (expiration_date_search_agent_kwargs expiration_date_search_web_tool);
  grocery_tracker_agent ← new_agent grocery_tracker_agent_kwargs;
  recipe_web_tool ← new_tool recipe_web_tool_kwargs;
  recipe_recommendation_agent ←
    new_agent (recipe_recommendation_agent_kwargs recipe_web_tool);
  mret (receipt_interpreter_agent,
        expiration_date_search_agent,
        grocery_tracker_agent,
        recipe_recommendation_agent).

(** ** Step 4: tasks *)

Definition define_tasks (receipt_markdown today : string)
    (agents : AgentObj * AgentObj * AgentObj * AgentObj) : M (list TaskObj) :=
  let '(receipt_interpreter_agent,
        expiration_date_search_agent,
        grocery_tracker_agent,
        recipe_recommendation_agent) := agents in
  read_receipt_task ←
    new_task (read_receipt_task_kwargs receipt_markdown today receipt_interpreter_agent);
  expiration_date_search_task ←
    new_task (expiration_date_search_task_kwargs
                expiration_date_search_agent read_receipt_task);
  grocery_tracking_task ←
    new_task (grocery_tracking_task_kwargs
                grocery_tracker_agent expiration_date_search_task);
  recipe_recommendation_task ←
    new_task (recipe_recommendation_task_kwargs
                recipe_recommendation_agent grocery_tracking_task);
  mret [read_receipt_task;
        expiration_date_search_task;
        grocery_tracking_task;
        recipe_recommendation_task].

(** ** Step 5: crew *)

Definition run_crew (tasks : list TaskObj)
    (agents : AgentObj * AgentObj * AgentObj * AgentObj) : M CrewOutput :=
  let crew := {|
    Crew.agents := list_of_tuple agents;
    Crew.tasks := tasks;
    Crew.verbose := true
  |} in
  kickoff crew.

(** ** Main block *)

Definition main : M unit :=
  setup_environment tt ;;
  receipt_markdown ← load_receipt receipt_file_path;
  agents ← create_agents tt;
  tasks ← define_tasks receipt_markdown today agents;
  result ← run_crew tasks agents;
  print "Crew execution completed. Results saved to output files.".

(** ** Shapes of call sequences *)

(** Four [Task(...)] calls in a row: the first with arguments [k1], each
    later one with arguments computed from the object the call before it
    returned; the four objects are returned in that order, and the first
    call that raises ends the sequence. *)
Definition task_chain (k1 : Task.kwargs AgentObj TaskObj)
    (k2 k3 k4 : TaskObj -> Task.kwargs AgentObj TaskObj) : M (list TaskObj) :=
  t1 ← new_task k1;
  t2 ← new_task (k2 t1);
  t3 ← new_task (k3 t2);
  t4 ← new_task (k4 t3);
  mret [t1; t2; t3; t4].

(** The six calls of [create_agents] in a row: an agent, a tool and the
    agent that gets it, an agent, a tool and the agent that gets it. *)
Definition agent_chain
    (g1 : Agent.kwargs ToolObj) (u2 : WebsiteSearchTool.kwargs)
    (g2 : ToolObj -> Agent.kwargs ToolObj) (g3 : Agent.kwargs ToolObj)
    (u4 : WebsiteSearchTool.kwargs) (g4 : ToolObj -> Agent.kwargs ToolObj)
  : M (AgentObj * AgentObj * AgentObj * AgentObj) :=
  a1 ← new_agent g1;
  tool2 ← new_tool u2;
  a2 ← new_agent (g2 tool2);
  a3 ← new_agent g3;
  tool4 ← new_tool u4;
  a4 ← new_agent (g4 tool4);
  mret (a1, a2, a3, a4).

End Script.

(** ** Sample surroundings, used to run the definitions *)

(** A renderer that wraps its input in a paragraph. *)
Definition sample_markdown (s : string) : string := "<p>" +:+ s +:+ "</p>".

(** A framework that accepts every call and keeps what it is given: each
    object is the keyword arguments it was built from.  Its crew run
    succeeds at once, asks nothing and touches nothing. *)
Definition keep_tool (kw : WebsiteSearchTool.kwargs) : M WebsiteSearchTool.kwargs :=
  mret kw.

Definition keep_agent (kw : Agent.kwargs WebsiteSearchTool.kwargs)
  : M (Agent.kwargs WebsiteSearchTool.kwargs) :=
  mret kw.

Definition keep_task
    (kw : Task.kwargs (Agent.kwargs WebsiteSearchTool.kwargs) recorded_task)
  : M recorded_task :=
  mret (Recorded kw).

Definition sample_kickoff
    (crew : Crew.kwargs (Agent.kwargs WebsiteSearchTool.kwargs) recorded_task)
  : M nat :=
  mret (length (Crew.tasks crew)).

(** A [Task] constructor that validates as crewAI does: the framework
    declares [expected_output: str], and its validation turns down any
    other value with a [ValidationError] naming the field. *)
Definition validating_task
    (kw : Task.kwargs (Agent.kwargs WebsiteSearchTool.kwargs) recorded_task)
  : M recorded_task :=
  match Task.expected_output kw with
  | PStr _ => mret (Recorded kw)
  | _ => raise (ValidationError "expected_output")
  end.

(** The four agents as the keeping framework returns them. *)
Definition sample_agents
  : Agent.kwargs WebsiteSearchTool.kwargs * Agent.kwargs WebsiteSearchTool.kwargs
    * Agent.kwargs WebsiteSearchTool.kwargs * Agent.kwargs WebsiteSearchTool.kwargs :=
  (receipt_interpreter_agent_kwargs,
   expiration_date_search_agent_kwargs expiration_date_search_web_tool_kwargs,
   grocery_tracker_agent_kwargs,
   recipe_recommendation_agent_kwargs recipe_web_tool_kwargs).

(** A world holding a receipt at the path of the main block, and one
    holding none; both start with a key already exported, and nobody is
    at the terminal. *)
Definition sample_world : World := {|
  environ := {[ "OPENAI_API_KEY" := "sk-live"; "HOME" := "/root" ]};
  files := {[ receipt_file_path := "# Receipt" ]};
  argv := ["app.py"];
  stdin := [];
  stdout := []
|}.

Definition empty_world : World := {|
  environ := {[ "LLAMA_OCR_API_KEY" := "llx-live" ]};
  files := ∅;
  argv := ["app.py"; "--date"; "2025-01-01"];
  stdin := [];
  stdout := []
|}.

(** ** Notions used in the statements *)

(** Replacing, or unsetting, one environment variable from outside. *)
Definition override_environ (k : string) (o : option string) (w : World) : World :=
  with_environ (partial_alter (λ _, o) k (environ w)) w.

(** A statement commutes with a change [f] of the world: making the
    change beforehand gives the same outcome, and the same final world
    with the change made. *)
Definition commutes_with {A : Type} (f : World → World) (m : M A) : Prop :=
  ∀ w : World, m (f w) = ((m w).1, f (m w).2).

(** A statement ignores variable [k]: overriding [k] beforehand changes
    neither what it returns or raises nor what it does to the rest of the
    world, and it leaves [k] as it found it. *)
Definition ignores_environ_key {A : Type} (k : string) (m : M A) : Prop :=
  ∀ (o : option string) (w : World),
    m (override_environ k o w) = ((m w).1, override_environ k o (m w).2).

(** A statement ignores the command line likewise. *)
Definition ignores_argv {A : Type} (m : M A) : Prop :=
  ∀ (a : list string) (w : World),
    m (with_argv a w) = ((m w).1, with_argv a (m w).2).

(** Reading a schema literal: [d.keys()], [d[k]] and the entries of a
    list, taken together since every list in the schemas has one entry. *)
Definition dict_keys (v : pyval) : list string :=
  match v with
  | PDict entries => entries.*1
  | _ => []
  end.

Definition dict_get (k : string) (v : pyval) : option pyval :=
  match v with
  | PDict entries => (λ found, found.2.2) <$> list_find (λ kv, kv.1 = k) entries
  | _ => None
  end.

Definition list_items (v : pyval) : list pyval :=
  match v with
  | PList items => items
  | _ => []
  end.

(** The field names a schema declares for the records listed under key
    [k]. *)
Definition declared_fields (k : string) (schema : pyval) : option (list (list string)) :=
  (λ v, dict_keys <$> list_items v) <$> dict_get k schema.

(** Whether a value is a Python [str]. *)
Definition is_str (v : pyval) : bool :=
  match v with
  | PStr _ => true
  | _ => false
  end.



(** The text that the first description puts between the receipt and the
    date. *)
Definition date_clause : string :=
  ". Extract information on items purchased, their counts, weights, and units. Today's date is ".

(** * Properties of the statements *)

Lemma setup_environment_run (w : World) :
  setup_environment tt w =
  (Returned tt,
   with_environ
     (<["LLAMA_OCR_API_KEY" := "[YOUR LLAMA OCR API KEY]"]>
        (<["OPENAI_API_KEY" := "[YOUR OPENAI API KEY]"]> (environ w))) w).
Proof. reflexivity. Qed.

Lemma string_app_assoc (s1 s2 s3 : string) :
  (s1 +:+ s2) +:+ s3 = s1 +:+ s2 +:+ s3.
Proof.
  induction s1 as [|c s1 IH]; [reflexivity|].
  change (String c ((s1 +:+ s2) +:+ s3) = String c (s1 +:+ s2 +:+ s3)).
  by rewrite IH.
Qed.

Lemma bind_returned {A B : Type} (m : M A) (k : A → M B) (w w' : World) (a : A) :
  m w = (Returned a, w') → (m ≫= k) w = k a w'.
Proof. intros H. unfold mbind, M_bind, bind. by rewrite H. Qed.

Lemma bind_raised {A B : Type} (m : M A) (k : A → M B) (w w' : World) (e : exn) :
  m w = (Raised e, w') → (m ≫= k) w = (Raised e, w').
Proof. intros H. unfold mbind, M_bind, bind. by rewrite H. Qed.

Lemma bind_returned_inv {A B : Type} (m : M A) (k : A → M B) (w w' : World) (b : B) :
  (m ≫= k) w = (Returned b, w') →
  ∃ (a : A) (w1 : World), m w = (Returned a, w1) ∧ k a w1 = (Returned b, w').
Proof.
  unfold mbind, M_bind, bind. destruct (m w) as [[a|e] w1]; intros H.
  - by exists a, w1.
  - discriminate H.
Qed.

Lemma commutes_with_ret {A : Type} (f : World → World) (a : A) :
  commutes_with f (mret a).
Proof. intros w. reflexivity. Qed.

Lemma commutes_with_bind {A B : Type} (f : World → World) (m : M A) (k : A → M B) :
  commutes_with f m → (∀ a, commutes_with f (k a)) → commutes_with f (m ≫= k).
Proof.
  intros Hm Hk w. unfold mbind, M_bind, bind. rewrite Hm.
  destruct (m w) as [[a|e] w1]; cbn [fst snd]; [apply Hk|reflexivity].
Qed.

(** C8.  From any environment, also one that already holds real keys,
    [setup_environment] returns and leaves both variables equal to the
    placeholder literals. *)
Theorem setup_environment_overwrites (w : World) :
  ∃ w' : World,
    setup_environment tt w = (Returned tt, w')
    ∧ environ w' !! "OPENAI_API_KEY" = Some "[YOUR OPENAI API KEY]"
    ∧ environ w' !! "LLAMA_OCR_API_KEY" = Some "[YOUR LLAMA OCR API KEY]".
Proof.
  eexists. split; [apply setup_environment_run|].
  split; simpl.
  - rewrite lookup_insert_ne by done. apply lookup_insert_eq.
  - apply lookup_insert_eq.
Qed.

Section Properties.

Context {ToolObj AgentObj TaskObj CrewOutput : Type}.
Variable markdown : string → string.
Variable new_tool : WebsiteSearchTool.kwargs → M ToolObj.
Variable new_agent : Agent.kwargs ToolObj → M AgentObj.
Variable new_task : Task.kwargs AgentObj TaskObj → M TaskObj.
Variable kickoff : Crew.kwargs AgentObj TaskObj → M CrewOutput.

Lemma define_tasks_calls (receipt_markdown date : string) (a1 a2 a3 a4 : AgentObj) :
  define_tasks new_task receipt_markdown date (a1, a2, a3, a4)
  = task_chain new_task
      (read_receipt_task_kwargs receipt_markdown date a1)
      (expiration_date_search_task_kwargs a2)
      (grocery_tracking_task_kwargs a3)
      (recipe_recommendation_task_kwargs a4).
Proof. reflexivity. Qed.

Lemma create_agents_calls :
  create_agents new_tool new_agent tt
  = agent_chain new_tool new_agent
      receipt_interpreter_agent_kwargs
      expiration_date_search_web_tool_kwargs expiration_date_search_agent_kwargs
      grocery_tracker_agent_kwargs
      recipe_web_tool_kwargs recipe_recommendation_agent_kwargs.
Proof. reflexivity. Qed.

Lemma define_tasks_commutes (f : World → World) (receipt_markdown date : string)
    (agents : AgentObj * AgentObj * AgentObj * AgentObj) :
  (∀ kw, commutes_with f (new_task kw)) →
  commutes_with f (define_tasks new_task receipt_markdown date agents).
Proof.
  intros H. destruct agents as [[[a1 a2] a3] a4]. unfold define_tasks.
  repeat (apply commutes_with_bind; [apply H|intros ?]).
  apply commutes_with_ret.
Qed.

Lemma create_agents_commutes (f : World → World) :
  (∀ kw, commutes_with f (new_tool kw)) →
  (∀ kw, commutes_with f (new_agent kw)) →
  commutes_with f (create_agents new_tool new_agent tt).
Proof.
  intros Ht Ha. unfold create_agents.
  repeat (apply commutes_with_bind; [first [apply Ha|apply Ht]|intros ?]).
  apply commutes_with_ret.
Qed.

Lemma define_tasks_raises_with_first_call
    (receipt_markdown date : string) (a1 a2 a3 a4 : AgentObj)
    (w w' : World) (e : exn) :
  new_task (read_receipt_task_kwargs receipt_markdown date a1) w = (Raised e, w') →
  define_tasks new_task receipt_markdown date (a1, a2, a3, a4) w = (Raised e, w').
Proof.
  intros H. rewrite define_tasks_calls. unfold task_chain. by apply bind_raised.
Qed.

(** C1.  Where the [Task] constructor turns down an [expected_output]
    that is not a string, as crewAI's does, [define_tasks] returns no
    list at all: for every receipt, date and agents it raises what the
    first [Task(...)] call raises, in the world that call left, because
    that call is handed a dict.  No later call is made. *)
Theorem define_tasks_raises_on_rejected_expected_output :
  (∀ (kw : Task.kwargs AgentObj TaskObj) (w : World),
     is_str (Task.expected_output kw) = false →
     ∃ (e : exn) (w' : World), new_task kw w = (Raised e, w')) →
  ∀ (receipt_markdown date : string) (a1 a2 a3 a4 : AgentObj) (w : World),
    ∃ (e : exn) (w' : World),
      new_task (read_receipt_task_kwargs receipt_markdown date a1) w = (Raised e, w')
      ∧ define_tasks new_task receipt_markdown date (a1, a2, a3, a4) w
        = (Raised e, w')
      ∧ ∀ tasks w'',
          define_tasks new_task receipt_markdown date (a1, a2, a3, a4) w
          ≠ (Returned tasks, w'').
Proof.
  intros Hstrict receipt_markdown date a1 a2 a3 a4 w.
  destruct (Hstrict (read_receipt_task_kwargs receipt_markdown date a1) w)
    as (e & w' & He); [reflexivity|].
  assert (Hd : define_tasks new_task receipt_markdown date (a1, a2, a3, a4) w
               = (Raised e, w'))
    by (by apply define_tasks_raises_with_first_call).
  exists e, w'. repeat split; [done|done|].
  intros tasks w''. rewrite Hd. discriminate.
Qed.

(** C4.  [define_tasks] is four [Task(...)] calls in a row.  Only the
    third, the grocery tracking task, and the fourth, the recipe
    recommendation task, pass an [output_file], each its fixed relative
    path; the first two calls pass none.  The four objects are returned
    when all four calls return. *)
Theorem define_tasks_output_files
    (receipt_markdown date : string) (a1 a2 a3 a4 : AgentObj) :
  ∃ (k1 : Task.kwargs AgentObj TaskObj)
    (k2 k3 k4 : TaskObj → Task.kwargs AgentObj TaskObj),
    define_tasks new_task receipt_markdown date (a1, a2, a3, a4)
    = task_chain new_task k1 k2 k3 k4
    ∧ Task.agent k1 = a1
    ∧ Task.output_file k1 = None
    ∧ (∀ t, Task.agent (k2 t) = a2 ∧ Task.output_file (k2 t) = None)
    ∧ (∀ t,
         Task.agent (k3 t) = a3
         ∧ Task.description (k3 t)
           = "Using the grocery list with expiration dates, update the inventory based on user input about consumed items. Subtract consumed quantities and provide a summary of what's left, including expiration dates."
         ∧ Task.output_file (k3 t)
           = Some "../data/grocery_management_agents_system/output/grocery_tracker.json")
    ∧ (∀ t,
         Task.agent (k4 t) = a4
         ∧ Task.description (k4 t)
           = "Using the updated grocery list, search online for recipes that utilize available ingredients. If no suitable recipe can be found, provide restocking recommendations."
         ∧ Task.output_file (k4 t)
           = Some "../data/grocery_management_agents_system/output/recipe_recommendation.json").
Proof.
  eexists _, _, _, _. split; [apply define_tasks_calls|].
  repeat split.
Qed.



Lemma load_receipt_run (file_path : string) (w : World) :
  load_receipt markdown file_path w =
  match files w !! file_path with
  | Some contents => (Returned (markdown contents), w)
  | None => (Raised (FileNotFoundError file_path), w)
  end.
Proof.
  unfold load_receipt, mbind, M_bind, bind, open_read.
  by destruct (files w !! file_path).
Qed.

Lemma main_run (w : World) :
  main markdown new_tool new_agent new_task kickoff w =
  let w1 := (setup_environment tt w).2 in
  match files w !! receipt_file_path with
  | Some contents =>
      (agents ← create_agents new_tool new_agent tt;
       tasks ← define_tasks new_task (markdown contents) today agents;
       result ← run_crew kickoff tasks agents;
       print "Crew execution completed. Results saved to output files.") w1
  | None => (Raised (FileNotFoundError receipt_file_path), w1)
  end.
Proof.
  unfold main.
  rewrite (bind_returned _ _ w _ tt (setup_environment_run w)).
  rewrite setup_environment_run. cbn [snd].
  set (w1 := with_environ _ w).
  assert (Hf : files w1 = files w) by reflexivity.
  destruct (files w !! receipt_file_path) as [contents|] eqn:E.
  - erewrite bind_returned; [|rewrite load_receipt_run, Hf, E; reflexivity].
    reflexivity.
  - erewrite bind_raised; [reflexivity|].
    by rewrite load_receipt_run, Hf, E.
Qed.

(** C2.  Where no file exists at [file_path], [load_receipt] returns
    nothing: it raises the open error for that path and leaves the world
    as it was.  The main block has no handler either: when the receipt is
    absent the whole run ends with that same error, in the world exactly
    as [setup_environment] left it, with nothing printed.  The error cuts
    off whatever statements follow the call: in the main block these are
    [create_agents], [define_tasks], [run_crew] and the closing [print],
    so no agent and no task is built. *)
Theorem load_receipt_missing_file_raises :
  (∀ (file_path : string) (w : World),
     files w !! file_path = None →
     load_receipt markdown file_path w = (Raised (FileNotFoundError file_path), w))
  ∧ (∀ w : World,
       files w !! "../data/grocery_management_agents_system/extracted/grocery_receipt.md"
         = None →
       main markdown new_tool new_agent new_task kickoff w
       = (Raised (FileNotFoundError
                    "../data/grocery_management_agents_system/extracted/grocery_receipt.md"),
          (setup_environment tt w).2)
       ∧ stdout (main markdown new_tool new_agent new_task kickoff w).2 = stdout w)
  ∧ (∀ (B : Type) (rest : string → M B) (file_path : string) (w : World),
       files w !! file_path = None →
       (setup_environment tt ≫= λ _, load_receipt markdown file_path ≫= rest) w
       = (Raised (FileNotFoundError file_path), (setup_environment tt w).2)).
Proof.
  repeat apply conj.
  - intros file_path w H. by rewrite load_receipt_run, H.
  - intros w H. rewrite main_run. unfold receipt_file_path. rewrite H.
    split; reflexivity.
  - intros B rest file_path w H.
    rewrite (bind_returned _ _ w _ tt (setup_environment_run w)).
    apply bind_raised. rewrite load_receipt_run, setup_environment_run.
    cbn [snd files with_environ]. by rewrite H.
Qed.

(** C5.  Where a file exists at [file_path], [load_receipt] returns the
    rendering [markdown contents] of its whole contents.  In the main block
    that rendered string is what [define_tasks] is called with once
    [create_agents] has returned, and [define_tasks] places it in the
    description of its first [Task(...)] call, the call for the first
    stage. *)
Theorem load_receipt_returns_rendered :
  (∀ (file_path : string) (w : World) (contents : string),
     files w !! file_path = Some contents →
     load_receipt markdown file_path w = (Returned (markdown contents), w))
  ∧ (∀ (w : World) (contents : string),
       files w !! receipt_file_path = Some contents →
       main markdown new_tool new_agent new_task kickoff w
       = (agents ← create_agents new_tool new_agent tt;
          tasks ← define_tasks new_task (markdown contents) today agents;
          result ← run_crew kickoff tasks agents;
          print "Crew execution completed. Results saved to output files.")
           (setup_environment tt w).2)
  ∧ (∀ (contents : string) (a1 a2 a3 a4 : AgentObj),
       ∃ (k1 : Task.kwargs AgentObj TaskObj)
         (k2 k3 k4 : TaskObj → Task.kwargs AgentObj TaskObj),
         define_tasks new_task (markdown contents) today (a1, a2, a3, a4)
         = task_chain new_task k1 k2 k3 k4
         ∧ Task.agent k1 = a1
         ∧ Task.description k1
           = "Analyze the receipt markdown file: " +:+ markdown contents
             +:+ ". Extract information on items purchased, their counts, weights, and units. Today's date is 2024-11-16. Ensure all item names are clear and human-readable.").
Proof.
  repeat apply conj.
  - intros file_path w contents H. by rewrite load_receipt_run, H.
  - intros w contents H. by rewrite main_run, H.
  - intros contents a1 a2 a3 a4.
    eexists _, _, _, _. split; [apply define_tasks_calls|].
    split; [reflexivity|].
    cbn [Task.description read_receipt_task_kwargs]. unfold today.
    rewrite !string_app_assoc. reflexivity.
Qed.

(** C3.  [setup_environment] returns, having set the two variables
    OPENAI_API_KEY and LLAMA_OCR_API_KEY and nothing else: the domain of
    the environment grows by at most these two names, every other entry
    keeps its value, and files, command line, terminal and printed output
    are untouched.  No other function of the script reads
    LLAMA_OCR_API_KEY: [load_receipt] and [print] ignore the variable, and
    [create_agents], [define_tasks] and [run_crew] ignore it as soon as the
    framework calls they forward to do. *)
Theorem setup_environment_frame :
  (∀ w : World, ∃ w' : World,
     setup_environment tt w = (Returned tt, w')
     ∧ environ w' !! "OPENAI_API_KEY" = Some "[YOUR OPENAI API KEY]"
     ∧ environ w' !! "LLAMA_OCR_API_KEY" = Some "[YOUR LLAMA OCR API KEY]"
     ∧ dom (environ w')
       = {[ "OPENAI_API_KEY"; "LLAMA_OCR_API_KEY" ]} ∪ dom (environ w)
     ∧ (∀ k : string,
          k ≠ "OPENAI_API_KEY" → k ≠ "LLAMA_OCR_API_KEY" →
          environ w' !! k = environ w !! k)
     ∧ files w' = files w ∧ argv w' = argv w ∧ stdout w' = stdout w
     ∧ stdin w' = stdin w)
  ∧ (∀ file_path : string,
       ignores_environ_key "LLAMA_OCR_API_KEY" (load_receipt markdown file_path))
  ∧ (∀ s : string, ignores_environ_key "LLAMA_OCR_API_KEY" (print s))
  ∧ ((∀ crew : Crew.kwargs AgentObj TaskObj,
        ignores_environ_key "LLAMA_OCR_API_KEY" (kickoff crew)) →
     ∀ (tasks : list TaskObj) (agents : AgentObj * AgentObj * AgentObj * AgentObj),
       ignores_environ_key "LLAMA_OCR_API_KEY" (run_crew kickoff tasks agents))
  ∧ ((∀ kw, ignores_environ_key "LLAMA_OCR_API_KEY" (new_tool kw)) →
     (∀ kw, ignores_environ_key "LLAMA_OCR_API_KEY" (new_agent kw)) →
     ignores_environ_key "LLAMA_OCR_API_KEY" (create_agents new_tool new_agent tt))
  ∧ ((∀ kw, ignores_environ_key "LLAMA_OCR_API_KEY" (new_task kw)) →
     ∀ (receipt_markdown date : string)
       (agents : AgentObj * AgentObj * AgentObj * AgentObj),
       ignores_environ_key "LLAMA_OCR_API_KEY"
         (define_tasks new_task receipt_markdown date agents)).
Proof.
  repeat apply conj.
  - intros w. eexists. split; [apply setup_environment_run|].
    cbn [environ files argv stdin stdout with_environ].
    repeat apply conj; try reflexivity.
    + rewrite lookup_insert_ne by done. apply lookup_insert_eq.
    + apply lookup_insert_eq.
    + rewrite !dom_insert_L. apply set_eq. intros x.
      rewrite !elem_of_union. tauto.
    + intros k Hk1 Hk2. by rewrite !lookup_insert_ne.
  - intros file_path o w. rewrite !load_receipt_run.
    cbn [files override_environ with_environ].
    by destruct (files w !! file_path).
  - intros s o w. reflexivity.
  - intros Hk tasks agents o w. unfold run_crew. apply Hk.
  - intros Ht Ha o. apply create_agents_commutes.
    + intros kw. exact (Ht kw o).
    + intros kw. exact (Ha kw o).
  - intros Hk receipt_markdown date agents o. apply define_tasks_commutes.
    intros kw. exact (Hk kw o).
Qed.

(** C6.  The main block consults no command-line argument.  Whatever the
    command line holds, the run opens the one path
    ../data/grocery_management_agents_system/extracted/grocery_receipt.md:
    it either raises the open error for that path or goes on to build the
    agents and to call [define_tasks] with the rendered contents of that
    file and the date 2024-11-16.  The command line is left as found by
    the script's own statements, and the whole run ignores it as soon as
    the framework calls do. *)
Theorem main_fixed_inputs :
  (∀ (w : World) (a : list string),
     let w1 := (setup_environment tt (with_argv a w)).2 in
     argv w1 = a
     ∧ main markdown new_tool new_agent new_task kickoff (with_argv a w)
       = match files w !! "../data/grocery_management_agents_system/extracted/grocery_receipt.md" with
         | Some contents =>
             (agents ← create_agents new_tool new_agent tt;
              tasks ← define_tasks new_task (markdown contents) "2024-11-16" agents;
              result ← run_crew kickoff tasks agents;
              print "Crew execution completed. Results saved to output files.") w1
         | None =>
             (Raised (FileNotFoundError
                        "../data/grocery_management_agents_system/extracted/grocery_receipt.md"),
              w1)
         end)
  ∧ ((∀ kw, ignores_argv (new_tool kw)) →
     (∀ kw, ignores_argv (new_agent kw)) →
     (∀ kw, ignores_argv (new_task kw)) →
     (∀ crew, ignores_argv (kickoff crew)) →
     ignores_argv (main markdown new_tool new_agent new_task kickoff)).
Proof.
  split.
  - intros w a w1. split; [reflexivity|].
    rewrite main_run. reflexivity.
  - intros Ht Ha Hk Hc a. unfold main.
    apply commutes_with_bind; [intros w; reflexivity|intros _].
    apply commutes_with_bind.
    { intros w. rewrite !load_receipt_run. cbn [files with_argv].
      by destruct (files w !! receipt_file_path). }
    intros receipt_markdown. apply commutes_with_bind.
    { apply create_agents_commutes; intros kw; [exact (Ht kw a)|exact (Ha kw a)]. }
    intros agents. apply commutes_with_bind.
    { apply define_tasks_commutes. intros kw. exact (Hk kw a). }
    intros tasks. apply commutes_with_bind.
    { unfold run_crew. exact (Hc _ a). }
    intros result w. reflexivity.
Qed.

End Properties.

(** * Further properties *)

(** ** Strings *)

Lemma string_length_app (s1 s2 : string) :
  String.length (s1 +:+ s2) = String.length s1 + String.length s2.
Proof.
  induction s1 as [|c s1 IH]; [reflexivity|].
  change (S (String.length (s1 +:+ s2)) = S (String.length s1 + String.length s2)).
  by rewrite IH.
Qed.

Lemma string_app_inj_r (s1 s2 t : string) :
  s1 +:+ t = s2 +:+ t → s1 = s2.
Proof.
  revert s2. induction s1 as [|c1 s1 IH]; intros [|c2 s2] H.
  - reflexivity.
  - apply (f_equal String.length) in H.
    rewrite (string_length_app (String c2 s2)) in H.
    change (String.length ("" +:+ t)) with (String.length t) in H.
    change (String.length (String c2 s2)) with (S (String.length s2)) in H. lia.
  - apply (f_equal String.length) in H.
    rewrite (string_length_app (String c1 s1)) in H.
    change (String.length ("" +:+ t)) with (String.length t) in H.
    change (String.length (String c1 s1)) with (S (String.length s1)) in H. lia.
  - change (String c1 (s1 +:+ t) = String c2 (s2 +:+ t)) in H.
    injection H as -> H. f_equal. by apply IH.
Qed.

(** ** The environment *)

Lemma setup_environment_absorbs (e e' : gmap string string) :
  (∀ k : string,
     k ≠ "OPENAI_API_KEY" → k ≠ "LLAMA_OCR_API_KEY" → e !! k = e' !! k) →
  <["LLAMA_OCR_API_KEY" := "[YOUR LLAMA OCR API KEY]"]>
    (<["OPENAI_API_KEY" := "[YOUR OPENAI API KEY]"]> e)
  = <["LLAMA_OCR_API_KEY" := "[YOUR LLAMA OCR API KEY]"]>
      (<["OPENAI_API_KEY" := "[YOUR OPENAI API KEY]"]> e').
Proof.
  intros H. apply map_eq. intros k.
  destruct (decide (k = "LLAMA_OCR_API_KEY")) as [->|Hl].
  { by rewrite !lookup_insert_eq. }
  rewrite !(lookup_insert_ne _ "LLAMA_OCR_API_KEY") by done.
  destruct (decide (k = "OPENAI_API_KEY")) as [->|Ho].
  { by rewrite !lookup_insert_eq. }
  rewrite !lookup_insert_ne by done. by apply H.
Qed.

(** X7.  Running [setup_environment] a second time changes nothing: the
    world after two calls is the world after one. *)
Theorem setup_environment_idempotent (w : World) :
  (setup_environment tt ≫= λ _, setup_environment tt) w = setup_environment tt w.
Proof.
  rewrite (bind_returned _ _ w _ tt (setup_environment_run w)).
  rewrite !setup_environment_run. f_equal.
  unfold with_environ. cbn [environ files argv stdin stdout]. f_equal.
  apply setup_environment_absorbs. intros k Ho Hl.
  by rewrite !lookup_insert_ne.
Qed.

Section MoreProperties.

Context {ToolObj AgentObj TaskObj CrewOutput : Type}.
Variable markdown : string → string.
Variable new_tool : WebsiteSearchTool.kwargs → M ToolObj.
Variable new_agent : Agent.kwargs ToolObj → M AgentObj.
Variable new_task : Task.kwargs AgentObj TaskObj → M TaskObj.
Variable kickoff : Crew.kwargs AgentObj TaskObj → M CrewOutput.

(** ** The arguments of the [Task(...)] calls *)

Lemma read_receipt_task_description (receipt_markdown date : string) (a : AgentObj) :
  Task.description
    (read_receipt_task_kwargs (TaskObj := TaskObj) receipt_markdown date a)
  = "Analyze the receipt markdown file: " +:+ receipt_markdown
    +:+ date_clause +:+ date
    +:+ ". Ensure all item names are clear and human-readable.".
Proof.
  cbn [Task.description read_receipt_task_kwargs]. unfold date_clause.
  rewrite !string_app_assoc. reflexivity.
Qed.

(** X1.  With the date fixed, the description that [define_tasks] passes
    to its first [Task(...)] call determines the receipt text: two
    receipts that give the same description are the same, whatever agent
    is passed along. *)
Theorem first_description_determines_receipt
    (receipt1 receipt2 date : string) (a a' : AgentObj) :
  Task.description (read_receipt_task_kwargs (TaskObj := TaskObj) receipt1 date a)
  = Task.description (read_receipt_task_kwargs (TaskObj := TaskObj) receipt2 date a') →
  receipt1 = receipt2.
Proof.
  rewrite !read_receipt_task_description. intros H.
  apply (inj (String.app _)) in H.
  by apply string_app_inj_r in H.
Qed.

(** X2.  With the receipt fixed, that description determines the date. *)
Theorem first_description_determines_date
    (receipt date1 date2 : string) (a a' : AgentObj) :
  Task.description (read_receipt_task_kwargs (TaskObj := TaskObj) receipt date1 a)
  = Task.description (read_receipt_task_kwargs (TaskObj := TaskObj) receipt date2 a') →
  date1 = date2.
Proof.
  rewrite !read_receipt_task_description. intros H.
  apply (inj (String.app _)), (inj (String.app _)), (inj (String.app _)) in H.
  by apply string_app_inj_r in H.
Qed.

(** X3.  Receipt and date together are not determined: the two are
    spliced into the description as they come, so a receipt that ends with
    the wording of the date clause makes [define_tasks] pass the very same
    arguments, and so run the very same calls, as a shorter receipt with a
    longer date. *)
Theorem define_tasks_receipt_can_carry_date_clause
    (x y z : string) (a1 a2 a3 a4 : AgentObj) :
  read_receipt_task_kwargs (TaskObj := TaskObj) (x +:+ date_clause +:+ y) z a1
  = read_receipt_task_kwargs x (y +:+ date_clause +:+ z) a1
  ∧ define_tasks new_task (x +:+ date_clause +:+ y) z (a1, a2, a3, a4)
    = define_tasks new_task x (y +:+ date_clause +:+ z) (a1, a2, a3, a4)
  ∧ x +:+ date_clause +:+ y ≠ x.
Proof.
  assert (Hk :
    read_receipt_task_kwargs (TaskObj := TaskObj) (x +:+ date_clause +:+ y) z a1
    = read_receipt_task_kwargs x (y +:+ date_clause +:+ z) a1).
  { unfold read_receipt_task_kwargs. f_equal.
    unfold date_clause. rewrite !string_app_assoc. reflexivity. }
  repeat apply conj.
  - exact Hk.
  - rewrite !define_tasks_calls. by rewrite Hk.
  - intros H. apply (f_equal String.length) in H.
    rewrite !string_length_app in H. unfold date_clause in H. simpl in H. lia.
Qed.

(** X4.  [define_tasks] makes its [Task(...)] calls in the order receipt
    reading, expiration estimation, grocery tracking, recipe
    recommendation, giving call number i the agent number i.  The first
    call passes no [context]; each later call passes as [context] the list
    holding exactly the object the call before it returned.  The function
    returns a list exactly when all four calls return, one after the
    other, and the list then holds the four objects in call order. *)
Theorem define_tasks_call_chain
    (receipt_markdown date : string) (a1 a2 a3 a4 : AgentObj) :
  ∃ (k1 : Task.kwargs AgentObj TaskObj)
    (k2 k3 k4 : TaskObj → Task.kwargs AgentObj TaskObj),
    define_tasks new_task receipt_markdown date (a1, a2, a3, a4)
    = task_chain new_task k1 k2 k3 k4
    ∧ (Task.agent k1 = a1 ∧ Task.context k1 = None
       ∧ Task.description k1
         = "Analyze the receipt markdown file: " +:+ receipt_markdown
           +:+ date_clause +:+ date
           +:+ ". Ensure all item names are clear and human-readable.")
    ∧ (∀ t,
         Task.agent (k2 t) = a2 ∧ Task.context (k2 t) = Some [t]
         ∧ Task.description (k2 t)
           = "Using the list of items extracted by the Receipt Interpreter Agent, search online to find the typical shelf life of each item. Add this information to the purchase date to estimate the expiration date for each item.")
    ∧ (∀ t,
         Task.agent (k3 t) = a3 ∧ Task.context (k3 t) = Some [t]
         ∧ Task.description (k3 t)
           = "Using the grocery list with expiration dates, update the inventory based on user input about consumed items. Subtract consumed quantities and provide a summary of what's left, including expiration dates.")
    ∧ (∀ t,
         Task.agent (k4 t) = a4 ∧ Task.context (k4 t) = Some [t]
         ∧ Task.description (k4 t)
           = "Using the updated grocery list, search online for recipes that utilize available ingredients. If no suitable recipe can be found, provide restocking recommendations.")
    ∧ (∀ (w w' : World) (tasks : list TaskObj),
         define_tasks new_task receipt_markdown date (a1, a2, a3, a4) w
         = (Returned tasks, w')
         ↔ ∃ (t1 t2 t3 t4 : TaskObj) (w1 w2 w3 : World),
             new_task k1 w = (Returned t1, w1)
             ∧ new_task (k2 t1) w1 = (Returned t2, w2)
             ∧ new_task (k3 t2) w2 = (Returned t3, w3)
             ∧ new_task (k4 t3) w3 = (Returned t4, w')
             ∧ tasks = [t1; t2; t3; t4]).
Proof.
  eexists _, _, _, _. split; [apply define_tasks_calls|].
  split; [split; [reflexivity|split; [reflexivity|apply read_receipt_task_description]]|].
  do 3 (split; [intros t; repeat split|]).
  intros w w' tasks. rewrite define_tasks_calls. unfold task_chain. split.
  - intros H.
    apply bind_returned_inv in H as (t1 & w1 & H1 & H).
    apply bind_returned_inv in H as (t2 & w2 & H2 & H).
    apply bind_returned_inv in H as (t3 & w3 & H3 & H).
    apply bind_returned_inv in H as (t4 & w4 & H4 & H).
    injection H as <- <-.
    by exists t1, t2, t3, t4, w1, w2, w3.
  - intros (t1 & t2 & t3 & t4 & w1 & w2 & w3 & H1 & H2 & H3 & H4 & ->).
    rewrite (bind_returned _ _ _ _ _ H1), (bind_returned _ _ _ _ _ H2),
      (bind_returned _ _ _ _ _ H3), (bind_returned _ _ _ _ _ H4).
    reflexivity.
Qed.

(** X5.  What the four [Task(...)] calls pass as [expected_output] is a
    dict each time, never a string.  The records declared under [items]
    keep their shape along the pipeline: the first call declares
    [item_name], [count], [unit]; the second and third declare these plus
    [expiration_date]; the fourth has no [items] key but [recipes] and
    [restock_recommendations]. *)
Theorem expected_output_arguments
    (receipt_markdown date : string) (a : AgentObj) (t : TaskObj) :
  let e1 := Task.expected_output
              (read_receipt_task_kwargs (TaskObj := TaskObj) receipt_markdown date a) in
  let e2 := Task.expected_output (expiration_date_search_task_kwargs a t) in
  let e3 := Task.expected_output (grocery_tracking_task_kwargs a t) in
  let e4 := Task.expected_output (recipe_recommendation_task_kwargs a t) in
  is_str <$> [e1; e2; e3; e4] = [false; false; false; false]
  ∧ dict_keys <$> [e1; e2; e3; e4]
    = [ ["items"; "date_of_purchase"]; ["items"]; ["items"];
        ["recipes"; "restock_recommendations"] ]
  ∧ declared_fields "items" <$> [e1; e2; e3; e4]
    = [ Some [["item_name"; "count"; "unit"]];
        Some [["item_name"; "count"; "unit"; "expiration_date"]];
        Some [["item_name"; "count"; "unit"; "expiration_date"]];
        None ]
  ∧ declared_fields "recipes" e4
    = Some [["recipe_name"; "ingredients"; "steps"; "source"]]
  ∧ declared_fields "restock_recommendations" e4
    = Some [["item_name"; "quantity_needed"; "unit"]].
Proof. repeat split. Qed.

(** X6.  The [output_file] arguments are two paths that differ from one
    another and from the receipt the main block reads, so no stage is told
    to overwrite the input or another stage's file. *)
Theorem output_file_arguments_apart
    (receipt_markdown date : string) (a : AgentObj) (t : TaskObj) :
  let outputs :=
    omap Task.output_file
      [ read_receipt_task_kwargs receipt_markdown date a;
        expiration_date_search_task_kwargs a t;
        grocery_tracking_task_kwargs a t;
        recipe_recommendation_task_kwargs a t ] in
  length outputs = 2 ∧ NoDup (receipt_file_path :: outputs).
Proof.
  split; [reflexivity|].
  apply (bool_decide_unpack _). vm_compute. reflexivity.
Qed.

(** X13.  [create_agents] makes six calls in a fixed order: an agent, a
    tool and the agent that gets it, an agent, a tool and the agent that
    gets it.  Each tool object is handed to one agent only, as its whole
    [tools] list: the stilltasty.com tool to the expiration date
    specialist, the americastestkitchen.com tool to the recipe specialist.
    The other two agents are built without a [tools] keyword. *)
Theorem create_agents_call_chain :
  ∃ (g1 : Agent.kwargs ToolObj) (u2 : WebsiteSearchTool.kwargs)
    (g2 : ToolObj → Agent.kwargs ToolObj) (g3 : Agent.kwargs ToolObj)
    (u4 : WebsiteSearchTool.kwargs) (g4 : ToolObj → Agent.kwargs ToolObj),
    create_agents new_tool new_agent tt
    = agent_chain new_tool new_agent g1 u2 g2 g3 u4 g4
    ∧ (Agent.role g1 = "Receipt Markdown Interpreter" ∧ Agent.tools g1 = None)
    ∧ WebsiteSearchTool.website u2 = "https://www.stilltasty.com/"
    ∧ (∀ tool,
         Agent.role (g2 tool) = "Expiration Date Estimation Specialist"
         ∧ Agent.tools (g2 tool) = Some [tool])
    ∧ (Agent.role g3 = "Grocery Inventory Tracker" ∧ Agent.tools g3 = None)
    ∧ WebsiteSearchTool.website u4 = "https://www.americastestkitchen.com/recipes"
    ∧ (∀ tool,
         Agent.role (g4 tool) = "Grocery Recipe Recommendation Specialist"
         ∧ Agent.tools (g4 tool) = Some [tool]).
Proof.
  eexists _, _, _, _, _, _. split; [apply create_agents_calls|].
  repeat split.
Qed.

(** ** The main block *)

Lemma main_after_setup (w : World) :
  main markdown new_tool new_agent new_task kickoff w
  = (receipt_markdown ← load_receipt markdown receipt_file_path;
     agents ← create_agents new_tool new_agent tt;
     tasks ← define_tasks new_task receipt_markdown today agents;
     result ← run_crew kickoff tasks agents;
     print "Crew execution completed. Results saved to output files.")
      (setup_environment tt w).2.
Proof.
  unfold main. by rewrite (bind_returned _ _ w _ tt (setup_environment_run w)).
Qed.

(** X10.  Whatever the two key variables held when the script was
    started, set or unset, the run is the same: both are overwritten
    before anything can read them, so exported credentials never reach the
    framework. *)
Theorem main_ignores_exported_keys (o1 o2 : option string) (w : World) :
  main markdown new_tool new_agent new_task kickoff
    (override_environ "OPENAI_API_KEY" o1
       (override_environ "LLAMA_OCR_API_KEY" o2 w))
  = main markdown new_tool new_agent new_task kickoff w.
Proof.
  rewrite !main_after_setup.
  assert (Hw :
    (setup_environment tt
       (override_environ "OPENAI_API_KEY" o1
          (override_environ "LLAMA_OCR_API_KEY" o2 w))).2
    = (setup_environment tt w).2).
  { rewrite !setup_environment_run. cbn [snd].
    unfold override_environ, with_environ. cbn [environ files argv stdin stdout].
    f_equal. apply setup_environment_absorbs. intros k Ho Hl.
    by rewrite !lookup_partial_alter_ne. }
  by rewrite Hw.
Qed.

Lemma main_returns_inv (w w' : World) (u : unit) :
  main markdown new_tool new_agent new_task kickoff w = (Returned u, w') →
  ∃ (contents : string) (agents : AgentObj * AgentObj * AgentObj * AgentObj)
    (tasks : list TaskObj) (result : CrewOutput) (w2 w3 w4 : World),
    files w !! receipt_file_path = Some contents
    ∧ create_agents new_tool new_agent tt (setup_environment tt w).2
      = (Returned agents, w2)
    ∧ define_tasks new_task (markdown contents) today agents w2
      = (Returned tasks, w3)
    ∧ run_crew kickoff tasks agents w3 = (Returned result, w4)
    ∧ w' = with_stdout
             (stdout w4 ++ ["Crew execution completed. Results saved to output files."])
             w4.
Proof.
  rewrite main_run. cbv zeta.
  destruct (files w !! receipt_file_path) as [contents|]; [|discriminate].
  intros H.
  apply bind_returned_inv in H as (agents & w2 & H2 & H).
  apply bind_returned_inv in H as (tasks & w3 & H3 & H).
  apply bind_returned_inv in H as (result & w4 & H4 & H).
  injection H as <-.
  by exists contents, agents, tasks, result, w2, w3, w4.
Qed.

(** X9.  A run of the main block that returns has found the receipt, has
    had [create_agents], [define_tasks] and [run_crew] return one after
    the other, the tasks being built from the rendered receipt and the
    agents just created, and has printed the closing line as the last
    thing it did. *)
Theorem main_returns_only_after_every_step (w w' : World) (u : unit) :
  main markdown new_tool new_agent new_task kickoff w = (Returned u, w') →
  receipt_file_path ∈ dom (files w)
  ∧ (∃ (contents : string) (agents : AgentObj * AgentObj * AgentObj * AgentObj)
       (tasks : list TaskObj) (result : CrewOutput) (w2 w3 w4 : World),
       files w !! receipt_file_path = Some contents
       ∧ create_agents new_tool new_agent tt (setup_environment tt w).2
         = (Returned agents, w2)
       ∧ define_tasks new_task (markdown contents) today agents w2
         = (Returned tasks, w3)
       ∧ run_crew kickoff tasks agents w3 = (Returned result, w4)
       ∧ stdout w'
         = (stdout w4 ++ ["Crew execution completed. Results saved to output files."])%list).
Proof.
  intros H.
  apply main_returns_inv in H
    as (contents & agents & tasks & result & w2 & w3 & w4 & Hf & H2 & H3 & H4 & ->).
  split.
  - apply elem_of_dom. by exists contents.
  - by exists contents, agents, tasks, result, w2, w3, w4.
Qed.

(** X12.  Where the [Task] constructor turns down an [expected_output]
    that is not a string, the main block never returns: every run ends in
    an exception, so the framework is never asked to run a crew by a run
    that completes and the closing line is never printed by one. *)
Theorem main_never_returns_on_rejected_expected_output :
  (∀ (kw : Task.kwargs AgentObj TaskObj) (w : World),
     is_str (Task.expected_output kw) = false →
     ∃ (e : exn) (w' : World), new_task kw w = (Raised e, w')) →
  ∀ w : World,
    ∃ (e : exn) (w' : World),
      main markdown new_tool new_agent new_task kickoff w = (Raised e, w').
Proof.
  intros Hstrict w.
  destruct (main markdown new_tool new_agent new_task kickoff w)
    as [[u|e] w'] eqn:Hm; [|by exists e, w'].
  apply main_returns_inv in Hm
    as (contents & [[[a1 a2] a3] a4] & tasks & result & w2 & w3 & w4
        & _ & _ & H3 & _).
  destruct (Hstrict (read_receipt_task_kwargs (markdown contents) today a1) w2)
    as (e & w'' & He); [reflexivity|].
  apply (define_tasks_raises_with_first_call _ _ _ a1 a2 a3 a4) in He.
  rewrite He in H3. discriminate H3.
Qed.

End MoreProperties.

(** * Sample runs *)

(** With a framework that checks [expected_output] as crewAI does, the
    first [Task(...)] call of [define_tasks] is turned down and no task is
    returned. *)
Example define_tasks_on_validating_framework :
  define_tasks validating_task "# Receipt" "2024-11-16" sample_agents sample_world
  = (Raised (ValidationError "expected_output"), sample_world).
Proof. reflexivity. Qed.

(** The whole run then stops there: the placeholders are in the
    environment, nothing is printed. *)
Example main_on_validating_framework :
  main sample_markdown keep_tool keep_agent validating_task sample_kickoff sample_world
  = (Raised (ValidationError "expected_output"),
     {| environ := {[ "OPENAI_API_KEY" := "[YOUR OPENAI API KEY]";
                      "LLAMA_OCR_API_KEY" := "[YOUR LLAMA OCR API KEY]";
                      "HOME" := "/root" ]};
        files := {[ receipt_file_path := "# Receipt" ]};
        argv := ["app.py"];
        stdin := [];
        stdout := [] |}).
Proof. vm_compute. reflexivity. Qed.

(** Without a receipt the run stops at the open error, whatever the
    framework; the arguments on the command line make no difference. *)
Example main_on_empty_world :
  main sample_markdown keep_tool keep_agent validating_task sample_kickoff empty_world
  = (Raised (FileNotFoundError receipt_file_path),
     {| environ := {[ "OPENAI_API_KEY" := "[YOUR OPENAI API KEY]";
                      "LLAMA_OCR_API_KEY" := "[YOUR LLAMA OCR API KEY]" ]};
        files := ∅;
        argv := ["app.py"; "--date"; "2025-01-01"];
        stdin := [];
        stdout := [] |}).
Proof. vm_compute. reflexivity. Qed.

(** A crew run that raises stops the run before the closing line. *)
Example main_when_kickoff_raises :
  (main sample_markdown keep_tool keep_agent keep_task
     (λ _ w, (Raised (FrameworkError "no network") : outcome nat, w))
     sample_world).1
  = Raised (FrameworkError "no network")
  ∧ stdout (main sample_markdown keep_tool keep_agent keep_task
              (λ _ w, (Raised (FrameworkError "no network") : outcome nat, w))
              sample_world).2
    = [].
Proof. split; reflexivity. Qed.

(** * Where the statements of the specification part from the script *)



(** * The statements run on the sample surroundings *)

Lemma validating_task_rejects
    (kw : Task.kwargs (Agent.kwargs WebsiteSearchTool.kwargs) recorded_task)
    (w : World) :
  is_str (Task.expected_output kw) = false →
  ∃ (e : exn) (w' : World), validating_task kw w = (Raised e, w').
Proof.
  unfold validating_task. destruct (Task.expected_output kw); intros H.
  - discriminate H.
  - by eexists _, _.
  - by eexists _, _.
Defined.

Lemma define_tasks_raises_on_rejected_expected_output_witness :
  (∀ kw w, is_str (Task.expected_output kw) = false →
           ∃ (e : exn) (w' : World), validating_task kw w = (Raised e, w'))
  ∧ ∃ (e : exn) (w' : World),
      define_tasks validating_task "# Receipt" "2024-11-16" sample_agents sample_world
      = (Raised e, w').
Proof.
  split; [exact validating_task_rejects|].
  destruct (define_tasks_raises_on_rejected_expected_output
              validating_task validating_task_rejects "# Receipt" "2024-11-16"
              receipt_interpreter_agent_kwargs
              (expiration_date_search_agent_kwargs expiration_date_search_web_tool_kwargs)
              grocery_tracker_agent_kwargs
              (recipe_recommendation_agent_kwargs recipe_web_tool_kwargs)
              sample_world)
    as (e & w' & _ & H & _).
  by exists e, w'.
Defined.

Lemma load_receipt_missing_file_raises_witness :
  files empty_world !! "no/such/receipt.md" = None
  ∧ load_receipt sample_markdown "no/such/receipt.md" empty_world
    = (Raised (FileNotFoundError "no/such/receipt.md"), empty_world)
  ∧ files empty_world !! receipt_file_path = None
  ∧ main sample_markdown keep_tool keep_agent keep_task sample_kickoff empty_world
    = (Raised (FileNotFoundError receipt_file_path),
       (setup_environment tt empty_world).2).
Proof.
  destruct (load_receipt_missing_file_raises
              sample_markdown keep_tool keep_agent keep_task sample_kickoff)
    as (Hload & Hmain & _).
  split; [reflexivity|].
  split; [apply Hload; reflexivity|].
  split; [reflexivity|].
  apply Hmain. reflexivity.
Defined.

Lemma load_receipt_returns_rendered_witness :
  files sample_world !! receipt_file_path = Some "# Receipt"
  ∧ load_receipt sample_markdown receipt_file_path sample_world
    = (Returned "<p># Receipt</p>", sample_world)
  ∧ main sample_markdown keep_tool keep_agent keep_task sample_kickoff sample_world
    = (agents ← create_agents keep_tool keep_agent tt;
       tasks ← define_tasks keep_task "<p># Receipt</p>" today agents;
       result ← run_crew sample_kickoff tasks agents;
       print "Crew execution completed. Results saved to output files.")
        (setup_environment tt sample_world).2.
Proof.
  destruct (load_receipt_returns_rendered
              sample_markdown keep_tool keep_agent keep_task sample_kickoff)
    as (Hload & Hmain & _).
  split; [reflexivity|].
  split.
  - apply (Hload receipt_file_path sample_world "# Receipt"). reflexivity.
  - apply (Hmain sample_world "# Receipt"). reflexivity.
Defined.

Lemma setup_environment_frame_witness :
  (∀ kw, ignores_environ_key "LLAMA_OCR_API_KEY" (keep_tool kw))
  ∧ (∀ kw, ignores_environ_key "LLAMA_OCR_API_KEY" (keep_agent kw))
  ∧ (∀ kw, ignores_environ_key "LLAMA_OCR_API_KEY" (keep_task kw))
  ∧ (∀ crew, ignores_environ_key "LLAMA_OCR_API_KEY" (sample_kickoff crew))
  ∧ ignores_environ_key "LLAMA_OCR_API_KEY" (create_agents keep_tool keep_agent tt)
  ∧ ignores_environ_key "LLAMA_OCR_API_KEY"
      (define_tasks keep_task "<p># Receipt</p>" today sample_agents)
  ∧ ignores_environ_key "LLAMA_OCR_API_KEY"
      (run_crew sample_kickoff ([] : list recorded_task) sample_agents).
Proof.
  assert (Ht : ∀ kw, ignores_environ_key "LLAMA_OCR_API_KEY" (keep_tool kw))
    by (intros kw o w; reflexivity).
  assert (Ha : ∀ kw, ignores_environ_key "LLAMA_OCR_API_KEY" (keep_agent kw))
    by (intros kw o w; reflexivity).
  assert (Hk : ∀ kw, ignores_environ_key "LLAMA_OCR_API_KEY" (keep_task kw))
    by (intros kw o w; reflexivity).
  assert (Hc : ∀ crew, ignores_environ_key "LLAMA_OCR_API_KEY" (sample_kickoff crew))
    by (intros crew o w; reflexivity).
  destruct (setup_environment_frame
              sample_markdown keep_tool keep_agent keep_task sample_kickoff)
    as (_ & _ & _ & Hrun & Hcreate & Hdefine).
  repeat apply conj; try assumption.
  - by apply Hcreate.
  - by apply Hdefine.
  - by apply Hrun.
Defined.

Lemma main_fixed_inputs_witness :
  (∀ kw, ignores_argv (keep_tool kw))
  ∧ (∀ kw, ignores_argv (keep_agent kw))
  ∧ (∀ kw, ignores_argv (keep_task kw))
  ∧ (∀ crew, ignores_argv (sample_kickoff crew))
  ∧ ignores_argv
      (main sample_markdown keep_tool keep_agent keep_task sample_kickoff).
Proof.
  assert (Ht : ∀ kw, ignores_argv (keep_tool kw)) by (intros kw a w; reflexivity).
  assert (Ha : ∀ kw, ignores_argv (keep_agent kw)) by (intros kw a w; reflexivity).
  assert (Hk : ∀ kw, ignores_argv (keep_task kw)) by (intros kw a w; reflexivity).
  assert (Hc : ∀ crew, ignores_argv (sample_kickoff crew))
    by (intros crew a w; reflexivity).
  repeat apply conj; try assumption.
  by apply (main_fixed_inputs
              sample_markdown keep_tool keep_agent keep_task sample_kickoff).
Defined.


Lemma first_description_determines_receipt_witness :
  Task.description
    (read_receipt_task_kwargs (TaskObj := recorded_task) "milk" "2024-11-16"
       (receipt_interpreter_agent_kwargs (ToolObj := WebsiteSearchTool.kwargs)))
  = Task.description
      (read_receipt_task_kwargs (TaskObj := recorded_task) "milk" "2024-11-16"
         (grocery_tracker_agent_kwargs (ToolObj := WebsiteSearchTool.kwargs)))
  ∧ "milk" = "milk".
Proof.
  split; [reflexivity|].
  apply (first_description_determines_receipt (TaskObj := recorded_task)
           "milk" "milk" "2024-11-16"
           (receipt_interpreter_agent_kwargs (ToolObj := WebsiteSearchTool.kwargs))
           (grocery_tracker_agent_kwargs (ToolObj := WebsiteSearchTool.kwargs))).
  reflexivity.
Defined.

Lemma first_description_determines_date_witness :
  Task.description
    (read_receipt_task_kwargs (TaskObj := recorded_task) "milk" "2024-11-16"
       (receipt_interpreter_agent_kwargs (ToolObj := WebsiteSearchTool.kwargs)))
  = Task.description
      (read_receipt_task_kwargs (TaskObj := recorded_task) "milk" "2024-11-16"
         (grocery_tracker_agent_kwargs (ToolObj := WebsiteSearchTool.kwargs)))
  ∧ "2024-11-16" = "2024-11-16".
Proof.
  split; [reflexivity|].
  apply (first_description_determines_date (TaskObj := recorded_task)
           "milk" "2024-11-16" "2024-11-16"
           (receipt_interpreter_agent_kwargs (ToolObj := WebsiteSearchTool.kwargs))
           (grocery_tracker_agent_kwargs (ToolObj := WebsiteSearchTool.kwargs))).
  reflexivity.
Defined.

Lemma main_returns_only_after_every_step_witness :
  (∃ w' : World,
     main sample_markdown keep_tool keep_agent keep_task sample_kickoff sample_world
     = (Returned tt, w'))
  ∧ receipt_file_path ∈ dom (files sample_world).
Proof.
  split; [eexists; vm_compute; reflexivity|].
  eapply (main_returns_only_after_every_step
            sample_markdown keep_tool keep_agent keep_task sample_kickoff
            sample_world _ tt).
  vm_compute. reflexivity.
Defined.

Lemma main_never_returns_on_rejected_expected_output_witness :
  (∀ kw w, is_str (Task.expected_output kw) = false →
           ∃ (e : exn) (w' : World), validating_task kw w = (Raised e, w'))
  ∧ ∃ (e : exn) (w' : World),
      main sample_markdown keep_tool keep_agent validating_task sample_kickoff
        sample_world
      = (Raised e, w').
Proof.
  split; [exact validating_task_rejects|].
  apply (main_never_returns_on_rejected_expected_output
           sample_markdown keep_tool keep_agent validating_task sample_kickoff
           validating_task_rejects).
Defined.
